(** * CommunitySupportedNumbers: the statistics strip of the site

    A shallow embedding of
    [src/components/sections/CommunitySupportedNumbers.tsx]: the JSX tree
    the component returns, the way React invokes it, and the reading of
    the utility classes its elements carry (display, grid template, column
    span, offsets), followed by the properties of the rendered output.
    The [Authentication] icon and the request handlers shown in the
    article on Clerk authentication are embedded as well. *)

From Stdlib Require Import String Ascii List ZArith NArith Bool Lia.
Import ListNotations.

Open Scope string_scope.
Open Scope list_scope.

(** ** JSX trees *)

Module Jsx.

(** An attribute value is a string literal ([viewBox='0 0 17 14']) or a
    number in braces ([width={17}]). *)
Inductive AttrValue : Type :=
| AStr (s : string)
| ANum (n : Z).

(** A lower-case tag is a host element, a capitalised one a component
    reference ([Link], imported from next/link). *)
Inductive Tag : Type :=
| Host (name : string)
| Component (name : string).

#[warnings="-register-all"]
Inductive Node : Type :=
| Text (s : string)
| Elem (tag : Tag) (props : list (string * AttrValue)) (children : list Node).

Definition tag_eqb (a b : Tag) : bool :=
  match a, b with
  | Host x, Host y => String.eqb x y
  | Component x, Component y => String.eqb x y
  | _, _ => false
  end.

Definition props_of (n : Node) : list (string * AttrValue) :=
  match n with
  | Text _ => []
  | Elem _ ps _ => ps
  end.

Definition children_of (n : Node) : list Node :=
  match n with
  | Text _ => []
  | Elem _ _ cs => cs
  end.

Definition has_tag (t : Tag) (n : Node) : bool :=
  match n with
  | Text _ => false
  | Elem t' _ _ => tag_eqb t t'
  end.

Fixpoint get_prop (k : string) (ps : list (string * AttrValue)) : option AttrValue :=
  match ps with
  | [] => None
  | (k', v) :: r => if String.eqb k k' then Some v else get_prop k r
  end.

Definition str_prop (k : string) (n : Node) : option string :=
  match get_prop k (props_of n) with
  | Some (AStr s) => Some s
  | _ => None
  end.

(** The text nodes of a tree, in document order. *)
Fixpoint texts (n : Node) : list string :=
  match n with
  | Text s => [s]
  | Elem _ _ cs => flat_map texts cs
  end.

(** All elements of a tree (the node itself included), in document
    order. *)
Fixpoint elements (n : Node) : list Node :=
  match n with
  | Text _ => []
  | Elem t ps cs => Elem t ps cs :: flat_map elements cs
  end.

Definition by_tag (t : Tag) (n : Node) : list Node :=
  filter (has_tag t) (elements n).

(** Names of all props set anywhere in a tree. *)
Definition prop_names (n : Node) : list string :=
  flat_map (fun e => map fst (props_of e)) (elements n).

End Jsx.
Import Jsx.

(** ** The component *)

(** The arrow drawn after the call-to-action text (lines 12-22). *)
Definition right_arrow : Node :=
  Elem (Host "svg")
    [ ("className", AStr "relative left-2 text-[#D8D8D8] transition-all duration-300 ease-in-out group-hover:left-4");
      ("width", ANum 17);
      ("height", ANum 14);
      ("viewBox", AStr "0 0 17 14");
      ("fill", AStr "none");
      ("stroke", AStr "currentColor");
      ("xmlns", AStr "http://www.w3.org/2000/svg") ]
    [ Elem (Host "path")
        [ ("d", AStr "M0 7H15M15 7L9.78261 1M15 7L9.78261 13");
          ("strokeWidth", ANum 2) ]
        [] ].

(** The chevron between the heading and the numbers (lines 26-35). *)
Definition chevron : Node :=
  Elem (Host "svg")
    [ ("className", AStr "hidden h-full w-auto text-[#191919] lg:block");
      ("width", ANum 51);
      ("height", ANum 192);
      ("viewBox", AStr "0 0 51 192");
      ("fill", AStr "currentColor");
      ("xmlns", AStr "http://www.w3.org/2000/svg") ]
    [ Elem (Host "path") [ ("d", AStr "M0 0H1L51 96L1 192H0L50 96L0 0Z") ] [] ].

(** [CommunitySupportedNumbers] is an arrow function with an empty
    parameter list; its body is a single [return] of a JSX literal.  JSX
    trims the line breaks and indentation around text, and the two
    [{/* ... */}] expressions yield no child. *)
Definition CommunitySupportedNumbers (_ : unit) : Node :=
  Elem (Host "div")
    [ ("className", AStr "mt-24 border-y border-[#191919] py-12 lg:py-0") ]
    [ Elem (Host "div")
        [ ("className", AStr "mx-auto grid w-full max-w-[1280px] grid-cols-3 gap-y-12 gap-x-8 px-5 sm:gap-14 sm:px-10 lg:grid-cols-[1fr_51px_1fr_1fr_1fr] lg:items-center") ]
        [ Elem (Host "div")
            [ ("className", AStr "col-span-3 lg:col-span-1 lg:py-12") ]
            [ Elem (Host "h2")
                [ ("className", AStr "font-gradual text-2xl font-bold text-[#C2C2C2]") ]
                [ Text "Supported by the community" ];
              Elem (Component "Link")
                [ ("href", AStr "#");
                  ("className", AStr "group mt-3 inline-flex items-center") ]
                [ Text "Join them now";
                  right_arrow ] ];
          chevron;
          Elem (Host "div")
            [ ("className", AStr "text-center lg:py-12") ]
            [ Elem (Host "p")
                [ ("className", AStr "bg-gradient-to-r from-[#FB540C] to-[#DD7D31] bg-clip-text font-gradual text-[2.5rem] font-bold leading-none text-transparent sm:text-[3.5rem]") ]
                [ Text "20k" ];
              Elem (Host "h3")
                [ ("className", AStr "mt-1 text-sm sm:text-base") ]
                [ Text "Github Stars" ] ];
          Elem (Host "div")
            [ ("className", AStr "text-center lg:py-12") ]
            [ Elem (Host "p")
                [ ("className", AStr "bg-gradient-to-r from-[#B59C53] to-[#A5A76B] bg-clip-text font-gradual text-[2.5rem] font-bold leading-none text-transparent sm:text-[3.5rem]") ]
                [ Text "10k" ];
              Elem (Host "h3")
                [ ("className", AStr "mt-1 text-sm sm:text-base") ]
                [ Text "Discord Users" ] ];
          Elem (Host "div")
            [ ("className", AStr "text-center lg:py-12") ]
            [ Elem (Host "p")
                [ ("className", AStr "bg-gradient-to-r from-[#93B083] to-[#7BBB9F] bg-clip-text font-gradual text-[2.5rem] font-bold leading-none text-transparent sm:text-[3.5rem]") ]
                [ Text "100" ];
              Elem (Host "h3")
                [ ("className", AStr "mt-1 text-sm sm:text-base") ]
                [ Text "Contributors" ] ] ] ].

(** ** Invocation by React *)

(** The input the specification describes for the strip: a heading, a
    call to action and an ordered sequence of metrics.  The source
    declares no such type, the component having no parameter; the
    records serve to state what the specification says of the input. *)
Record Metric : Type := mkMetric {
  value : string;
  label : string;
  gradientStart : string;
  gradientEnd : string
}.

Record MetricsStripConfig : Type := mkConfig {
  heading : string;
  ctaLabel : string;
  ctaHref : string;
  metrics : list Metric
}.

Module React.

(** What a render pass can observe and change outside the component:
    the number of passes so far, the clock, the viewport width and the
    cells of the hook store. *)
Record World : Type := mkWorld {
  render_count : nat;
  clock : Z;
  viewport_width : Z;
  hook_cells : list Z
}.

(** A call either returns or throws. *)
Inductive Outcome (A : Type) : Type :=
| Returned (a : A)
| Thrown (message : string).
Arguments Returned {A} a.
Arguments Thrown {A} message.

Definition Render (A : Type) : Type := World -> Outcome A * World.

Definition ret {A : Type} (a : A) : Render A := fun w => (Returned a, w).

Definition bind {A B : Type} (m : Render A) (k : A -> Render B) : Render B :=
  fun w =>
    match m w with
    | (Returned a, w') => k a w'
    | (Thrown e, w') => (Thrown e, w')
    end.

(** React calls a function component with the props object as its
    argument.  A JavaScript function declared with no parameter drops
    the arguments it is called with, so the body runs the same for
    every props value; the body of a component that calls no hook reads
    and writes nothing of the world. *)
Definition call_nullary {P A : Type} (f : unit -> A) (_props : P) : Render A :=
  ret (f tt).

End React.
Import React.

(** The strip of the specification, as the code realises it: the
    component of the source invoked with the configuration as props. *)
Definition MetricsStrip (cfg : MetricsStripConfig) : Render Node :=
  call_nullary CommunitySupportedNumbers cfg.

(** ** Reading the rendered tree *)

(** The grid container: the only child of the outer panel. *)
Definition grid (t : Node) : option Node :=
  match children_of t with
  | [g] => Some g
  | _ => None
  end.

Definition grid_items (t : Node) : list Node :=
  match grid t with
  | Some g => children_of g
  | None => []
  end.

(** A heading/CTA block: a [div] holding an [h2] with one text and a
    [Link] whose first child is its text. *)
Record HeadingBlock : Type := mkHeadingBlock {
  hb_heading : string;
  hb_link_props : list (string * AttrValue);
  hb_cta_text : string;
  hb_cta_trailing : list Node
}.

Definition hb_href (b : HeadingBlock) : option AttrValue :=
  get_prop "href" (hb_link_props b).

Definition as_heading_block (n : Node) : option HeadingBlock :=
  match n with
  | Elem (Host "div") _
      [ Elem (Host "h2") _ [Text h];
        Elem (Component "Link") ps (Text l :: rest) ] =>
      Some (mkHeadingBlock h ps l rest)
  | _ => None
  end.

(** A metric display block: a [div] holding a [p] with the value text
    followed by an [h3] with the label text. *)
Definition as_metric_block (n : Node) : option (string * string) :=
  match n with
  | Elem (Host "div") _
      [ Elem (Host "p") _ [Text v]; Elem (Host "h3") _ [Text l] ] =>
      Some (v, l)
  | _ => None
  end.

Fixpoint filter_map {A B : Type} (f : A -> option B) (l : list A) : list B :=
  match l with
  | [] => []
  | a :: r =>
      match f a with
      | Some b => b :: filter_map f r
      | None => filter_map f r
      end
  end.

Definition heading_blocks (t : Node) : list HeadingBlock :=
  filter_map as_heading_block (grid_items t).

(** The (value, label) pairs of the metric blocks, left to right. *)
Definition metric_blocks (t : Node) : list (string * string) :=
  filter_map as_metric_block (grid_items t).

Definition value_label (m : Metric) : string * string := (value m, label m).

(** The content the source hardcodes, written as a configuration. *)
Definition reference_metrics : list Metric :=
  [ mkMetric "20k" "Github Stars" "#FB540C" "#DD7D31";
    mkMetric "10k" "Discord Users" "#B59C53" "#A5A76B";
    mkMetric "100" "Contributors" "#93B083" "#7BBB9F" ].

Definition reference_config : MetricsStripConfig :=
  mkConfig "Supported by the community" "Join them now" "#" reference_metrics.

(** ** Utility classes

    The elements are styled only through the utility classes of their
    [className].  This section reads the classes the layout, the hover
    affordance and the gradients depend on, with the meaning the Tailwind
    documentation gives them. *)

Module Tw.

(** *** Splitting class names *)

Fixpoint split_from (sep : ascii) (cur : string) (s : string) : list string :=
  match s with
  | EmptyString => [cur]
  | String c r =>
      if Ascii.eqb c sep then cur :: split_from sep EmptyString r
      else split_from sep (cur ++ String c EmptyString) r
  end.

Definition split (sep : ascii) (s : string) : list string :=
  split_from sep EmptyString s.

Definition nonempty (s : string) : bool :=
  match s with
  | EmptyString => false
  | _ => true
  end.

(** The space-separated tokens of a [className]. *)
Definition class_list (s : string) : list string :=
  filter nonempty (split " " s).

Definition classes_of (n : Node) : list string :=
  match str_prop "className" n with
  | Some s => class_list s
  | None => []
  end.

Fixpoint strip_prefix (p s : string) : option string :=
  match p, s with
  | EmptyString, _ => Some s
  | String a p', String b s' =>
      if Ascii.eqb a b then strip_prefix p' s' else None
  | String _ _, EmptyString => None
  end.

Fixpoint rev_string (acc s : string) : string :=
  match s with
  | EmptyString => acc
  | String c r => rev_string (String c acc) r
  end.

Definition strip_suffix (p s : string) : option string :=
  match strip_prefix (rev_string "" p) (rev_string "" s) with
  | Some r => Some (rev_string "" r)
  | None => None
  end.

Definition digit (c : ascii) : option N :=
  let n := N_of_ascii c in
  if (48 <=? n)%N && (n <=? 57)%N then Some (n - 48)%N else None.

Fixpoint number_from (acc : N) (s : string) : option N :=
  match s with
  | EmptyString => Some acc
  | String c r =>
      match digit c with
      | Some d => number_from (10 * acc + d)%N r
      | None => None
      end
  end.

(** A non-empty string of decimal digits. *)
Definition number (s : string) : option N :=
  match s with
  | EmptyString => None
  | _ => number_from 0%N s
  end.

(** A class is a utility preceded by colon-separated variants
    ([lg:col-span-1], [group-hover:left-4]). *)
Record Class : Type := mkClass {
  variants : list string;
  utility : string
}.

Definition parse_class (s : string) : Class :=
  let parts := split ":" s in
  mkClass (removelast parts) (last parts EmptyString).

(** *** The rendering context *)

(** [screens] is the [theme.screens] table of the site's Tailwind
    configuration: the minimum width in pixels of each named
    breakpoint.  The site's configuration file is not part of the
    sources at hand, so the table is a parameter of everything below. *)
Definition Screens : Type := string -> option Z.

(** The table Tailwind ships. *)
Definition default_screens : Screens :=
  fun name =>
    if String.eqb name "sm" then Some 640%Z
    else if String.eqb name "md" then Some 768%Z
    else if String.eqb name "lg" then Some 1024%Z
    else if String.eqb name "xl" then Some 1280%Z
    else if String.eqb name "2xl" then Some 1536%Z
    else None.

Record Ctx : Type := mkCtx {
  width : Z;            (* viewport width in pixels *)
  group_hovered : bool  (* the pointer is over the enclosing [group] *)
}.

(** The precedence a variant gives its rule when it applies, [None]
    when it does not apply.  A breakpoint variant is a [min-width]
    media query and ranks by that width; [group-hover] applies while
    the enclosing group is hovered and ranks below every breakpoint
    and above the plain utility. *)
Definition variant_rank (screens : Screens) (ctx : Ctx) (v : string) : option Z :=
  if String.eqb v "group-hover" then
    if group_hovered ctx then Some (-1)%Z else None
  else
    match screens v with
    | Some m => if (m <=? width ctx)%Z then Some (Z.max 0 m) else None
    | None => None
    end.

Fixpoint variants_rank (screens : Screens) (ctx : Ctx) (vs : list string)
  : option Z :=
  match vs with
  | [] => Some (-2)%Z
  | v :: r =>
      match variant_rank screens ctx v, variants_rank screens ctx r with
      | Some a, Some b => Some (Z.max a b)
      | _, _ => None
      end
  end.

(** The value a property takes on an element: among the classes that
    set the property ([read] recognises them) and whose variants all
    apply, the one of highest precedence wins. *)
Fixpoint resolve_from {A : Type} (screens : Screens) (ctx : Ctx)
    (read : string -> option A) (best : option (Z * A)) (cs : list Class)
  : option (Z * A) :=
  match cs with
  | [] => best
  | c :: r =>
      let best' :=
        match read (utility c), variants_rank screens ctx (variants c) with
        | Some a, Some k =>
            match best with
            | Some (k0, _) => if (k0 <? k)%Z then Some (k, a) else best
            | None => Some (k, a)
            end
        | _, _ => best
        end in
      resolve_from screens ctx read best' r
  end.

Definition resolve {A : Type} (screens : Screens) (ctx : Ctx)
    (read : string -> option A) (cs : list Class) : option A :=
  match resolve_from screens ctx read None cs with
  | Some (_, a) => Some a
  | None => None
  end.

Definition styled {A : Type} (screens : Screens) (ctx : Ctx)
    (read : string -> option A) (n : Node) : option A :=
  resolve screens ctx read (map parse_class (classes_of n)).

(** *** The utilities the component relies on *)

Inductive Display : Type := DNone | DBlock | DInlineFlex | DGrid.

Definition read_display (u : string) : option Display :=
  if String.eqb u "hidden" then Some DNone
  else if String.eqb u "block" then Some DBlock
  else if String.eqb u "inline-flex" then Some DInlineFlex
  else if String.eqb u "grid" then Some DGrid
  else None.

(** A column track: an equal share [minmax(0, 1fr)] (what
    [grid-cols-3] repeats), a flexible [<n>fr] or a fixed [<n>px]. *)
Inductive Track : Type :=
| EqualShare
| Fr (n : N)
| Px (n : N).

Definition read_track (s : string) : option Track :=
  match strip_suffix "fr" s with
  | Some r => option_map Fr (number r)
  | None =>
      match strip_suffix "px" s with
      | Some r => option_map Px (number r)
      | None => None
      end
  end.

Fixpoint all_some {A : Type} (l : list (option A)) : option (list A) :=
  match l with
  | [] => Some []
  | Some a :: r => option_map (cons a) (all_some r)
  | None :: _ => None
  end.

(** [grid-cols-<n>] and the arbitrary value [grid-cols-[a_b_c]], whose
    underscores stand for the spaces of the track list. *)
Definition read_grid_cols (u : string) : option (list Track) :=
  match strip_prefix "grid-cols-" u with
  | Some r =>
      match number r with
      | Some n => Some (repeat EqualShare (N.to_nat n))
      | None =>
          match strip_prefix "[" r with
          | Some r1 =>
              match strip_suffix "]" r1 with
              | Some body => all_some (map read_track (split "_" body))
              | None => None
              end
          | None => None
          end
      end
  | None => None
  end.

Definition read_col_span (u : string) : option N :=
  match strip_prefix "col-span-" u with
  | Some r => number r
  | None => None
  end.

(** [left-<n>]: an offset of [n] steps of the spacing scale. *)
Definition read_left (u : string) : option N :=
  match strip_prefix "left-" u with
  | Some r => number r
  | None => None
  end.

(** The positioning scheme of a box. *)
Inductive Position : Type :=
| PStatic
| PRelative
| PAbsolute
| PFixed
| PSticky.

Definition read_position (u : string) : option Position :=
  if String.eqb u "static" then Some PStatic
  else if String.eqb u "relative" then Some PRelative
  else if String.eqb u "absolute" then Some PAbsolute
  else if String.eqb u "fixed" then Some PFixed
  else if String.eqb u "sticky" then Some PSticky
  else None.

(** How far a box is drawn to the right of its place in the line, in
    steps of the spacing scale.  [left] moves a box only when the box is
    relatively positioned; on a box left in the normal flow (no position
    class, or [static]) it has no effect, and under the other schemes it
    is not a displacement from the place in the line. *)
Definition displacement (screens : Screens) (ctx : Ctx) (n : Node) : option N :=
  match styled screens ctx read_position n with
  | Some PRelative =>
      Some match styled screens ctx read_left n with
           | Some k => k
           | None => 0%N
           end
  | Some PStatic => Some 0%N
  | None => Some 0%N
  | Some _ => None
  end.

(** The timing function of a transition. *)
Inductive Timing : Type :=
| Linear
| EaseIn
| EaseOut
| EaseInOut.

Definition read_timing (u : string) : option Timing :=
  if String.eqb u "ease-linear" then Some Linear
  else if String.eqb u "ease-in" then Some EaseIn
  else if String.eqb u "ease-out" then Some EaseOut
  else if String.eqb u "ease-in-out" then Some EaseInOut
  else None.

Definition read_duration (u : string) : option N :=
  match strip_prefix "duration-" u with
  | Some r => number r
  | None => None
  end.

Definition bracketed (prefix u : string) : option string :=
  match strip_prefix prefix u with
  | Some r =>
      match strip_prefix "[" r with
      | Some r1 => strip_suffix "]" r1
      | None => None
      end
  | None => None
  end.

(** The colour stops of a gradient: [from-[c]] and [to-[c]]. *)
Definition read_from (u : string) : option string := bracketed "from-" u.
Definition read_to (u : string) : option string := bracketed "to-" u.

Definition has_utility (screens : Screens) (ctx : Ctx) (name : string)
    (n : Node) : bool :=
  match styled screens ctx
          (fun u => if String.eqb u name then Some tt else None) n with
  | Some _ => true
  | None => false
  end.

(** Text painted with a gradient running to the right: the gradient is
    the background ([bg-gradient-to-r]), clipped to the glyphs
    ([bg-clip-text]) of a text that is itself transparent
    ([text-transparent]). *)
Definition text_gradient (screens : Screens) (ctx : Ctx) (n : Node)
  : option (string * string) :=
  if has_utility screens ctx "bg-gradient-to-r" n
     && has_utility screens ctx "bg-clip-text" n
     && has_utility screens ctx "text-transparent" n
  then
    match styled screens ctx read_from n, styled screens ctx read_to n with
    | Some a, Some b => Some (a, b)
    | _, _ => None
    end
  else None.

Definition hidden (screens : Screens) (ctx : Ctx) (n : Node) : bool :=
  match styled screens ctx read_display n with
  | Some DNone => true
  | _ => false
  end.

Definition col_span (screens : Screens) (ctx : Ctx) (n : Node) : N :=
  match styled screens ctx read_col_span n with
  | Some k => k
  | None => 1%N
  end.

(** *** Grid placement *)

Record Placed (A : Type) : Type := mkPlaced {
  item : A;
  row : N;
  col : N;
  span : N
}.
Arguments mkPlaced {A} item row col span.
Arguments item {A} p.
Arguments row {A} p.
Arguments col {A} p.
Arguments span {A} p.

(** Auto-placement of items that name no grid line, row by row: an
    item goes at the cursor when its span still fits in the row, else
    at the start of the next row. *)
Fixpoint auto_place {A : Type} (ncols : N) (r c : N) (items : list (A * N))
  : list (Placed A) :=
  match items with
  | [] => []
  | (a, s) :: rest =>
      if ((c + s <=? ncols) || (c =? 0))%N
      then mkPlaced a r c s :: auto_place ncols r (c + s)%N rest
      else mkPlaced a (r + 1)%N 0%N s :: auto_place ncols (r + 1)%N s rest
  end.

End Tw.
Import Tw.

(** ** Layout of the strip *)

(** What a child of the grid is. *)
Inductive Kind : Type :=
| KHeading
| KSeparator
| KMetric (value label : string)
| KOther.

Definition classify (n : Node) : Kind :=
  match as_heading_block n with
  | Some _ => KHeading
  | None =>
      match as_metric_block n with
      | Some (v, l) => KMetric v l
      | None => if has_tag (Host "svg") n then KSeparator else KOther
      end
  end.

Record Layout : Type := mkLayout {
  template : list Track;
  cells : list (Placed Kind)
}.

(** The grid the browser lays out: the column template of the container
    and, for each child that generates a box, the cell it is placed in. *)
Definition layout (screens : Screens) (ctx : Ctx) (t : Node) : option Layout :=
  match grid t with
  | Some g =>
      match styled screens ctx read_display g,
            styled screens ctx read_grid_cols g with
      | Some DGrid, Some tracks =>
          let shown := filter (fun n => negb (hidden screens ctx n)) (children_of g) in
          Some (mkLayout tracks
                  (auto_place (N.of_nat (length tracks)) 0%N 0%N
                     (map (fun n => (classify n, col_span screens ctx n)) shown)))
      | _, _ => None
      end
  | None => None
  end.

(** All cells lie in the first column, one per row, top to bottom. *)
Fixpoint stacked_from (r : N) (cs : list (Placed Kind)) : bool :=
  match cs with
  | [] => true
  | c :: rest => (row c =? r)%N && (col c =? 0)%N && stacked_from (r + 1)%N rest
  end.

Definition single_column (l : Layout) : bool := stacked_from 0%N (cells l).

(** ** Accessibility *)

(** An element is taken out of the accessibility tree by
    [aria-hidden='true'] or by a presentational role. *)
Definition marked_decorative (n : Node) : bool :=
  match get_prop "aria-hidden" (props_of n) with
  | Some (AStr "true") => true
  | _ =>
      match get_prop "role" (props_of n) with
      | Some (AStr "presentation") => true
      | Some (AStr "none") => true
      | _ => false
      end
  end.

(** What assistive technology is given: a text, or a graphic object. *)
Inductive Spoken : Type :=
| Says (s : string)
| Graphic.

(** The narration of a tree in document order.  Elements marked
    decorative or not displayed are left out with all they contain; an
    [svg] that is kept is exposed as one graphic object. *)
Fixpoint narration (screens : Screens) (ctx : Ctx) (n : Node) : list Spoken :=
  match n with
  | Text s => [Says s]
  | Elem t ps cs =>
      if marked_decorative (Elem t ps cs) || hidden screens ctx (Elem t ps cs)
      then []
      else if tag_eqb t (Host "svg") then [Graphic]
      else flat_map (narration screens ctx) cs
  end.

Definition spoken_texts (l : list Spoken) : list string :=
  filter_map (fun x => match x with Says s => Some s | Graphic => None end) l.

Definition is_graphic (x : Spoken) : bool :=
  match x with
  | Graphic => true
  | Says _ => false
  end.

(** The decorative glyphs of the strip are its [svg] elements. *)
Definition glyphs (t : Node) : list Node := by_tag (Host "svg") t.

(** ** The call to action *)

(** Props that register an event handler: [on] followed by a capital. *)
Definition is_handler (name : string) : bool :=
  match name with
  | String "o" (String "n" (String c _)) =>
      let k := N_of_ascii c in ((65 <=? k) && (k <=? 90))%N
  | _ => false
  end.

Definition handlers (t : Node) : list string :=
  filter is_handler (prop_names t).

(** The link is a hover group when its classes include [group]. *)
Definition is_group (b : HeadingBlock) : bool :=
  match get_prop "className" (hb_link_props b) with
  | Some (AStr c) => existsb (String.eqb "group") (class_list c)
  | _ => false
  end.

(** The glyph that trails the link text. *)
Definition indicator (b : HeadingBlock) : option Node :=
  match hb_cta_trailing b with
  | [g] => Some g
  | _ => None
  end.

(** How far the trailing glyph is drawn to the right of its place after
    the link text, in steps of the spacing scale, given whether the
    pointer is over the link: the displacement its positioning and its
    [left] give it. *)
Definition indicator_offset (screens : Screens) (w : Z) (hovered : bool)
    (b : HeadingBlock) : option N :=
  match indicator b with
  | Some g => displacement screens (mkCtx w (hovered && is_group b)) g
  | None => None
  end.

(** [n] render passes in a row with the same configuration. *)
Fixpoint render_passes (cfg : MetricsStripConfig) (n : nat) : Render (list Node) :=
  match n with
  | O => ret []
  | S k =>
      bind (MetricsStrip cfg) (fun t =>
      bind (render_passes cfg k) (fun ts =>
      ret (t :: ts)))
  end.

(** ** Gradients *)

(** The element that shows the value inside a metric block. *)
Definition as_metric_value (n : Node) : option Node :=
  match n with
  | Elem (Host "div") _
      [ Elem (Host "p") ps [Text v]; Elem (Host "h3") _ [Text _] ] =>
      Some (Elem (Host "p") ps [Text v])
  | _ => None
  end.

Definition metric_values (t : Node) : list Node :=
  filter_map as_metric_value (grid_items t).

Definition gradient_pair (m : Metric) : string * string :=
  (gradientStart m, gradientEnd m).

(** ** Statements of the specification that depend on the configuration *)

(** The statement "N metrics in, the same N blocks out, in order". *)
Definition metrics_rendered_in_order (cfg : MetricsStripConfig) : Prop :=
  forall (w : World) (t : Node),
    MetricsStrip cfg w = (Returned t, w) ->
    metric_blocks t = map value_label (metrics cfg).

(** The statement "an empty metrics sequence gives zero blocks". *)
Definition renders_no_metric_block (cfg : MetricsStripConfig) : Prop :=
  forall (w : World) (t : Node),
    MetricsStrip cfg w = (Returned t, w) -> metric_blocks t = [].

(** The statement "the link goes to [ctaHref] and reads [ctaLabel]". *)
Definition cta_follows_config (cfg : MetricsStripConfig) : Prop :=
  forall (w : World) (t : Node),
    MetricsStrip cfg w = (Returned t, w) ->
    exists b : HeadingBlock,
      heading_blocks t = [b]
      /\ hb_href b = Some (AStr (ctaHref cfg))
      /\ hb_cta_text b = ctaLabel cfg.

(** The statement "every decorative glyph is marked decorative". *)
Definition glyphs_marked_decorative (t : Node) : Prop :=
  forall g : Node, In g (glyphs t) -> marked_decorative g = true.

(** The statement "no graphic object reaches the narration". *)
Definition glyphs_not_narrated (screens : Screens) (ctx : Ctx) (t : Node) : Prop :=
  existsb is_graphic (narration screens ctx t) = false.

(** The statement "the cells form one column". *)
Definition stacks_in_single_column (screens : Screens) (ctx : Ctx) (t : Node) : Prop :=
  forall l : Layout, layout screens ctx t = Some l -> single_column l = true.

(** The cells of a run of metrics set side by side in row [r] from
    column [c] on, one column each. *)
Fixpoint metric_cells (r c : N) (ms : list Metric) : list (Placed Kind) :=
  match ms with
  | [] => []
  | m :: rest =>
      mkPlaced (KMetric (value m) (label m)) r c 1%N
      :: metric_cells r (c + 1)%N rest
  end.

(** The opt-outs and names an element can carry for assistive
    technology. *)
Definition aria_props : list string :=
  ["aria-hidden"; "role"; "aria-label"; "aria-labelledby"; "title"; "hidden"].

Definition is_aria_prop (name : string) : bool :=
  existsb (String.eqb name) aria_props.

(** The statement "on wide viewports heading, separator and each metric
    of the input, in input order, take one column each". *)
Definition wide_cells_follow_input (screens : Screens) (ctx : Ctx)
    (cfg : MetricsStripConfig) : Prop :=
  forall (w : World) (t : Node),
    MetricsStrip cfg w = (Returned t, w) ->
    exists l : Layout,
      layout screens ctx t = Some l
      /\ cells l
         = mkPlaced KHeading 0 0 1
           :: mkPlaced KSeparator 0 1 1
           :: metric_cells 0 2 (metrics cfg).

(** The statement "each value is painted from the [gradientStart] to the
    [gradientEnd] of its metric". *)
Definition values_follow_config_gradient (screens : Screens) (ctx : Ctx)
    (cfg : MetricsStripConfig) : Prop :=
  forall (w : World) (t : Node),
    MetricsStrip cfg w = (Returned t, w) ->
    map (text_gradient screens ctx) (metric_values t)
    = map (fun m => Some (gradient_pair m)) (metrics cfg).

(** ** The Authentication icon *)

Module Js.

(** A JavaScript object with string keys, its own properties in
    insertion order.  A value is an attribute value or [undefined]
    ([None]); [Partial] lets a caller set a key to [undefined]. *)
Definition Obj : Type := list (string * option AttrValue).

(** [o[k] = v]: an own key keeps its place and takes the new value, a new
    key goes last. *)
Fixpoint assign (k : string) (v : option AttrValue) (o : Obj) : Obj :=
  match o with
  | [] => [(k, v)]
  | (k', v') :: r =>
      if String.eqb k k' then (k', v) :: r else (k', v') :: assign k v r
  end.

(** [{...o, ...p}]: the properties of [p] assigned to a copy of [o], in
    order. *)
Definition spread (o p : Obj) : Obj :=
  fold_left (fun acc kv => assign (fst kv) (snd kv) acc) p o.

(** [Object.hasOwn(o, k)] together with [o[k]]: [None] when [k] is not a
    key, [Some None] when it is a key holding [undefined]. *)
Fixpoint own (k : string) (o : Obj) : option (option AttrValue) :=
  match o with
  | [] => None
  | (k', v) :: r => if String.eqb k k' then Some v else own k r
  end.

(** What the last assignment to [k] in a sequence of assignments set. *)
Definition last_set (k : string) (p : Obj) : option (option AttrValue) :=
  own k (rev p).

(** The attributes of the element created from a props object: keys
    holding [undefined] give no attribute, and [children] is not an
    attribute. *)
Fixpoint attributes (o : Obj) : list (string * AttrValue) :=
  match o with
  | [] => []
  | (k, Some v) :: r =>
      if String.eqb k "children" then attributes r else (k, v) :: attributes r
  | (_, None) :: r => attributes r
  end.

End Js.
Import Js.

(** The attributes written before the spread (line 64). *)
Definition icon_defaults : Obj :=
  [ ("width", Some (ANum 34));
    ("height", Some (ANum 34));
    ("viewBox", Some (AStr "0 0 34 34"));
    ("fill", Some (AStr "none"));
    ("xmlns", Some (AStr "http://www.w3.org/2000/svg")) ].

(** The shape of the icon (lines 65-68). *)
Definition icon_path : Node :=
  Elem (Host "path")
    [ ("d", AStr "M24.4732 24.4374C25.0871 24.4374 25.6066 24.2131 26.0316 23.7645C26.4566 23.3159 26.6691 22.7847 26.6691 22.1708C26.6691 21.5569 26.4566 21.0374 26.0316 20.6124C25.6066 20.1874 25.0871 19.9749 24.4732 19.9749C23.8594 19.9749 23.3281 20.1874 22.8795 20.6124C22.4309 21.0374 22.2066 21.5569 22.2066 22.1708C22.2066 22.7847 22.4309 23.3159 22.8795 23.7645C23.3281 24.2131 23.8594 24.4374 24.4732 24.4374ZM24.4378 28.8645C25.217 28.8645 25.9253 28.6992 26.5628 28.3687C27.2003 28.0381 27.7434 27.5659 28.192 26.952C27.5781 26.6215 26.9642 26.3735 26.3503 26.2083C25.7364 26.043 25.0989 25.9604 24.4378 25.9604C23.7767 25.9604 23.1333 26.043 22.5076 26.2083C21.8819 26.3735 21.2739 26.6215 20.6837 26.952C21.1323 27.5659 21.6694 28.0381 22.2951 28.3687C22.9208 28.6992 23.635 28.8645 24.4378 28.8645ZM24.5441 31.1666C22.7024 31.1666 21.1323 30.5114 19.8337 29.201C18.535 27.8906 17.8857 26.3381 17.8857 24.5437C17.8857 22.702 18.535 21.126 19.8337 19.8156C21.1323 18.5051 22.7024 17.8499 24.5441 17.8499C26.3621 17.8499 27.9264 18.5051 29.2368 19.8156C30.5472 21.126 31.2024 22.702 31.2024 24.5437C31.2024 26.3381 30.5472 27.8906 29.2368 29.201C27.9264 30.5114 26.3621 31.1666 24.5441 31.1666ZM17.0003 31.1666C13.742 30.411 11.0385 28.5635 8.88991 25.6239C6.7413 22.6843 5.66699 19.3138 5.66699 15.5124V7.04785L17.0003 2.79785L28.3337 7.04785V16.6104C27.7434 16.327 27.1295 16.1086 26.492 15.9551C25.8545 15.8017 25.2052 15.7249 24.5441 15.7249C22.1121 15.7249 20.0403 16.5867 18.3285 18.3104C16.6166 20.034 15.7607 22.1117 15.7607 24.5437C15.7607 25.677 15.991 26.7867 16.4514 27.8728C16.9118 28.959 17.5434 29.9034 18.3462 30.7062C18.1337 30.8242 17.9094 30.9128 17.6732 30.9718C17.4371 31.0308 17.2128 31.0958 17.0003 31.1666Z");
      ("fill", AStr "#D8D8D8") ]
    [].

(** [Authentication] takes a props object and returns an [svg] whose
    attributes are the defaults with the props spread over them; the
    [path] written between the tags is its child, whatever [children]
    the props hold. *)
Definition Authentication (props : Obj) : Node :=
  Elem (Host "svg") (attributes (spread icon_defaults props)) [icon_path].

(** The attribute [k] of the icon as its caller decides it: the value
    of the caller's last assignment if there is one ([undefined] giving
    no attribute), else the default. *)
Definition icon_attribute (props : Obj) (k : string) : option AttrValue :=
  if String.eqb k "children" then None
  else
    match last_set k props with
    | Some v => v
    | None => get_prop k (attributes icon_defaults)
    end.

(** ** Hover and the classes *)

(** A class that does not depend on the hover state of a group. *)
Definition hover_free (c : Class) : bool :=
  forallb (fun v => negb (String.eqb v "group-hover")) (variants c).

Definition hover_free_node (n : Node) : bool :=
  forallb hover_free (map parse_class (classes_of n)).

(** The two layouts of the strip. *)
Definition narrow_layout : Layout :=
  mkLayout [EqualShare; EqualShare; EqualShare]
    (mkPlaced KHeading 0 0 3 :: metric_cells 1 0 reference_metrics).

Definition wide_layout : Layout :=
  mkLayout [Fr 1; Px 51; Fr 1; Fr 1; Fr 1]
    (mkPlaced KHeading 0 0 1
     :: mkPlaced KSeparator 0 1 1
     :: metric_cells 0 2 reference_metrics).

(** Whether the [lg] media query of the theme matches. *)
Definition lg_applies (screens : Screens) (ctx : Ctx) : bool :=
  match screens "lg" with
  | Some m => (m <=? width ctx)%Z
  | None => false
  end.

(** Every cell lies inside the columns of the template. *)
Definition fits (l : Layout) : bool :=
  forallb (fun c => (col c + span c <=? N.of_nat (length (template l)))%N)
    (cells l).

(** ** The issue-tracker handlers of the article

    The article on Clerk authentication ships the handlers of an Actix
    web backend.  They are embedded here as programs over the calls
    they await: the Clerk authorisation, the SQLx queries and the Clerk
    user lookup are answered by the environment, and the handler's own
    code is the control flow between them. *)

Module Backend.

#[warnings="-register-all"]
Inductive Json : Type :=
| JNull
| JNum (n : Z)
| JStr (s : string)
| JArr (items : list Json)
| JObj (fields : list (string * Json)).

Inductive Result (T E : Type) : Type :=
| Ok (t : T)
| Err (e : E).
Arguments Ok {T E} t.
Arguments Err {T E} e.

Definition is_err {T E : Type} (r : Result T E) : bool :=
  match r with
  | Ok _ => false
  | Err _ => true
  end.

Definition is_none {A : Type} (o : option A) : bool :=
  match o with
  | Some _ => false
  | None => true
  end.

Module Issue.
Record t : Type := mk {
  id : Z;
  title : string;
  description : string;
  status : string;
  label : string;
  author : string
}.
End Issue.

Module NewIssue.
Record t : Type := mk {
  title : string;
  description : string;
  status : string;
  label : string;
  author : string
}.
End NewIssue.

(** [#[derive(Serialize)]] on [Issue]: an object of its fields. *)
Definition issue_json (i : Issue.t) : Json :=
  JObj [ ("id", JNum (Issue.id i));
         ("title", JStr (Issue.title i));
         ("description", JStr (Issue.description i));
         ("status", JStr (Issue.status i));
         ("label", JStr (Issue.label i));
         ("author", JStr (Issue.author i)) ].

Inductive StatusCode : Type :=
| OK
| UNAUTHORIZED
| FORBIDDEN
| NOT_FOUND
| INTERNAL_SERVER_ERROR.

Definition as_u16 (c : StatusCode) : Z :=
  match c with
  | OK => 200
  | UNAUTHORIZED => 401
  | FORBIDDEN => 403
  | NOT_FOUND => 404
  | INTERNAL_SERVER_ERROR => 500
  end.

(** [HttpResponse::<Status>().json(body)]. *)
Record HttpResponse : Type := respond {
  status : StatusCode;
  body : Json
}.

(** The [{"status": .., "message": ..}] bodies. *)
Definition status_message (s m : string) : Json :=
  JObj [ ("status", JStr s); ("message", JStr m) ].

(** A value bound to a placeholder of a query. *)
Inductive Bound : Type :=
| BText (s : string)
| BInt (n : Z).

(** [sqlx::query_as(sql).bind(..).bind(..)]. *)
Record Query : Type := query_as {
  sql : string;
  binds : list Bound
}.

(** The types and functions the handlers take from clerk-rs, sqlx and
    the project template, none of which the article shows. *)
Record Externals : Type := {
  HttpRequest : Type;
  AuthInfo : Type;        (* first component of what [clerk_authorize] returns *)
  AuthError : Type;
  ClerkJwt : Type;
  sub : ClerkJwt -> string;
  SqlError : Type;
  to_string : SqlError -> string;
  User : Type;
  ClerkError : Type;
  user_model : User -> Json   (* [Into::<UserModel>::into] then [Serialize] *)
}.

(** The calls a handler awaits. *)
Inductive Call (X : Externals) : Type -> Type :=
| clerk_authorize (req : HttpRequest X) (validate_session_cookie : bool)
  : Call X (Result (AuthInfo X * ClerkJwt X) (AuthError X))
| fetch_one (q : Query) : Call X (Result Issue.t (SqlError X))
| fetch_all (q : Query) : Call X (Result (list Issue.t) (SqlError X))
| get_user_call (user_id : string) : Call X (Result (User X) (ClerkError X)).
Arguments clerk_authorize {X} req validate_session_cookie.
Arguments fetch_one {X} q.
Arguments fetch_all {X} q.
Arguments get_user_call {X} user_id.

(** An async function body: it returns, panics, or awaits a call and
    goes on with the answer. *)
Inductive Task (X : Externals) (R : Type) : Type :=
| Return (r : R)
| Panic
| Await {A : Type} (c : Call X A) (k : A -> Task X R).
Arguments Return {X R} r.
Arguments Panic {X R}.
Arguments Await {X R A} c k.

(** [Option::unwrap]. *)
Definition unwrap {X : Externals} {A R : Type} (o : option A)
    (k : A -> Task X R) : Task X R :=
  match o with
  | Some a => k a
  | None => Panic
  end.

(** [f(..).await] of an async function [f] of the article. *)
Fixpoint and_then {X : Externals} {A R : Type} (t : Task X A)
    (k : A -> Task X R) : Task X R :=
  match t with
  | Return a => k a
  | Panic => Panic
  | Await c k' => Await c (fun a => and_then (k' a) k)
  end.

Section Handlers.

Context {X : Externals}.

Definition get_jwt_claim (service_request : HttpRequest X)
  : Task X (option (ClerkJwt X)) :=
  Await (clerk_authorize service_request true) (fun claim =>
  Return (match claim with
          | Ok value => Some (snd value)
          | Err _ => None
          end)).

Definition select_issue (issue_id : Z) : Query :=
  query_as "SELECT * FROM issues WHERE id=$1" [BInt issue_id].

Definition add_issue (payload : NewIssue.t) : Task X HttpResponse :=
  Await (fetch_one
           (query_as
              "INSERT INTO issues (title, description, status, label, author) VALUES ($1, $2, $3, $4, $5) RETURNING *"
              [ BText (NewIssue.title payload);
                BText (NewIssue.description payload);
                BText (NewIssue.status payload);
                BText (NewIssue.label payload);
                BText (NewIssue.author payload) ]))
    (fun create_query =>
  if is_err create_query then
    Return (respond INTERNAL_SERVER_ERROR
              (status_message "FAILED" "Failed to create an issue"))
  else
    Return (respond OK
              (status_message "SUCCESS" "Created the issue successfully"))).

Definition get_issues : Task X HttpResponse :=
  Await (fetch_all (query_as "SELECT * FROM issues" [])) (fun query =>
  match query with
  | Ok issues => Return (respond OK (JArr (map issue_json issues)))
  | Err e =>
      Return (respond INTERNAL_SERVER_ERROR
                (status_message "FAILED" (to_string X e)))
  end).

Definition get_issue (issue_id : Z) : Task X HttpResponse :=
  Await (fetch_one (select_issue issue_id)) (fun query =>
  match query with
  | Ok issue =>
      Return (respond OK
                (JObj [ ("status", JStr "SUCCESS"); ("data", issue_json issue) ]))
  | Err _ =>
      Return (respond INTERNAL_SERVER_ERROR
                (status_message "FAILED" "Something went wrong."))
  end).

Definition update_issue (payload : NewIssue.t) (issue_id : Z)
    (req : HttpRequest X) : Task X HttpResponse :=
  and_then (get_jwt_claim req) (fun claim =>
  if is_none claim then
    Return (respond FORBIDDEN
              (status_message "FAILED" "Not authorized to update the issue."))
  else
  Await (fetch_one (select_issue issue_id)) (fun query =>
  (* [rest]: the statements that follow the [match] *)
  let rest : Task X HttpResponse :=
    Await (fetch_one
             (query_as
                "UPDATE issues SET title=$1, description=$2, status=$3, label=$4 WHERE id=$5"
                [ BText (NewIssue.title payload);
                  BText (NewIssue.description payload);
                  BText (NewIssue.status payload);
                  BText (NewIssue.label payload);
                  BInt issue_id ]))
      (fun update_query =>
    if is_err update_query then
      Return (respond INTERNAL_SERVER_ERROR
                (status_message "FAILED" "Failed to update the issue"))
    else
      Return (respond OK (status_message "SUCCESS" "Updated successfully")))
  in
  match query with
  | Ok issue =>
      unwrap claim (fun c =>
      if negb (String.eqb (Issue.author issue) (sub X c)) then
        Return (respond UNAUTHORIZED
                  (status_message "FAILED" "Not authorized to update the issue."))
      else rest)
  | Err _ =>
      Return (respond NOT_FOUND
                (status_message "FAILED" "Issue does not exist."))
  end)).

Definition delete_issue (issue_id : Z) (req : HttpRequest X)
  : Task X HttpResponse :=
  and_then (get_jwt_claim req) (fun claim =>
  if is_none claim then
    Return (respond FORBIDDEN
              (status_message "FAILED" "Not authorized to delete the issue."))
  else
  Await (fetch_one (select_issue issue_id)) (fun query =>
  let rest : Task X HttpResponse :=
    Await (fetch_one (query_as "DELETE FROM issues WHERE id=$1" [BInt issue_id]))
      (fun delete_query =>
    if is_err delete_query then
      Return (respond INTERNAL_SERVER_ERROR
                (status_message "FAILED" "Failed to delete the issue"))
    else
      Return (respond OK (status_message "SUCCESS" "Deleted successfully")))
  in
  match query with
  | Ok issue =>
      unwrap claim (fun c =>
      if negb (String.eqb (Issue.author issue) (sub X c)) then
        Return (respond UNAUTHORIZED
                  (status_message "FAILED" "No authorized to delete the issue."))
      else rest)
  | Err _ =>
      Return (respond NOT_FOUND
                (status_message "FAILED" "Issue does not exist."))
  end)).

Definition get_user (req : HttpRequest X) : Task X HttpResponse :=
  and_then (get_jwt_claim req) (fun claim =>
  if is_none claim then
    Return (respond FORBIDDEN
              (status_message "FAILED" "Not authorized to update the issue."))
  else
  unwrap claim (fun c =>
  Await (get_user_call (sub X c)) (fun r =>
  match r with
  | Ok user => Return (respond OK (user_model X user))
  | Err _ =>
      Return (respond INTERNAL_SERVER_ERROR
                (JObj [ ("message", JStr "Unable to retrieve user") ]))
  end))).

Definition get_user_by_id (user_id : string) : Task X HttpResponse :=
  Await (get_user_call user_id) (fun r =>
  match r with
  | Ok user => Return (respond OK (user_model X user))
  | Err _ =>
      Return (respond INTERNAL_SERVER_ERROR
                (status_message "FAILED" "Unable to retrieve all users"))
  end).

End Handlers.

(** *** Running a handler *)

(** The environment: it answers each call from its state and moves to
    a new state (the database, Clerk's sessions, failures to come). *)
Definition Environment (X : Externals) (S : Type) : Type :=
  forall A : Type, Call X A -> S -> A * S.

(** A call that was made, with its answer. *)
Inductive Made (X : Externals) : Type :=
| made {A : Type} (c : Call X A) (answer : A).
Arguments made {X A} c answer.

Inductive Completion (R : Type) : Type :=
| Finished (r : R)
| Panicked.
Arguments Finished {R} r.
Arguments Panicked {R}.

Record Ran (X : Externals) (S R : Type) : Type := ran {
  log : list (Made X);
  outcome : Completion R;
  final : S
}.
Arguments ran {X S R} log outcome final.
Arguments log {X S R} r.
Arguments outcome {X S R} r.
Arguments final {X S R} r.

Fixpoint run {X : Externals} {S R : Type} (env : Environment X S)
    (t : Task X R) (s : S) : Ran X S R :=
  match t with
  | Return r => ran [] (Finished r) s
  | Panic => ran [] Panicked s
  | Await c k =>
      let (a, s') := env _ c s in
      let r := run env (k a) s' in
      ran (made c a :: log r) (outcome r) (final r)
  end.

(** The statements that change the table. *)
Definition writes (q : Query) : bool :=
  match strip_prefix "INSERT" (sql q),
        strip_prefix "UPDATE" (sql q),
        strip_prefix "DELETE" (sql q) with
  | None, None, None => false
  | _, _, _ => true
  end.

Definition is_write {X : Externals} (m : Made X) : bool :=
  match m with
  | made (fetch_one q) _ => writes q
  | made (fetch_all q) _ => writes q
  | made _ _ => false
  end.

Definition is_authorize {X : Externals} (m : Made X) : bool :=
  match m with
  | made (clerk_authorize _ _) _ => true
  | made _ _ => false
  end.

Definition is_database {X : Externals} (m : Made X) : bool :=
  match m with
  | made (fetch_one _) _ => true
  | made (fetch_all _) _ => true
  | made _ _ => false
  end.

(** Whether the call made was answered with an error. *)
Definition failed {X : Externals} (m : Made X) : bool :=
  match m with
  | made c a =>
      match c in Call _ A return A -> bool with
      | clerk_authorize _ _ => is_err
      | fetch_one _ => is_err
      | fetch_all _ => is_err
      | get_user_call _ => is_err
      end a
  end.

Definition status_of (o : Completion HttpResponse) : option StatusCode :=
  match o with
  | Finished r => Some (status r)
  | Panicked => None
  end.

(** [payload] with another author. *)
Definition with_author (a : string) (p : NewIssue.t) : NewIssue.t :=
  NewIssue.mk (NewIssue.title p) (NewIssue.description p)
    (NewIssue.status p) (NewIssue.label p) a.

(** *** A sample deployment

    A request is its bearer token, a verified token is the user id it
    names, and the environment counts the calls it has answered: it
    accepts every non-empty token, finds issue 1 (written by "user_1")
    and no other, and lets every statement on it succeed. *)

Definition sample : Externals :=
  {| HttpRequest := string;
     AuthInfo := unit;
     AuthError := unit;
     ClerkJwt := string;
     sub := fun c => c;
     SqlError := string;
     to_string := fun e => e;
     User := string;
     ClerkError := unit;
     user_model := JStr |}.

Definition sample_issue : Issue.t :=
  Issue.mk 1 "Crash on start" "Panics at boot" "open" "bug" "user_1".

Definition has_bind (b : Bound) (q : Query) : bool :=
  existsb (fun x =>
             match x, b with
             | BInt n, BInt m => (n =? m)%Z
             | BText s, BText t => String.eqb s t
             | _, _ => false
             end) (binds q).

Definition sample_env : Environment sample nat :=
  fun A c n =>
    match c in Call _ A return A * nat with
    | clerk_authorize req _ =>
        (match req with
         | EmptyString => Err tt
         | _ => Ok (tt, req)
         end, S n)
    | fetch_one q =>
        (if has_bind (BInt 1) q || writes q
         then Ok sample_issue else Err "no rows returned", S n)
    | fetch_all q => (Ok [sample_issue], S n)
    | get_user_call user_id => (Ok user_id, S n)
    end.

(** A request carrying the token of "user_1". *)
Definition sample_request : HttpRequest sample := "user_1".

Definition sample_payload : NewIssue.t :=
  NewIssue.mk "Crash on start" "Fixed in 1.2" "closed" "bug" "user_2".

End Backend.

(** * Properties *)

(** ** The component is a constant *)

Lemma MetricsStrip_returns (cfg : MetricsStripConfig) (w : World) :
  MetricsStrip cfg w = (Returned (CommunitySupportedNumbers tt), w).
Proof. reflexivity. Qed.

Lemma rendered_metric_blocks :
  metric_blocks (CommunitySupportedNumbers tt)
  = [("20k", "Github Stars"); ("10k", "Discord Users"); ("100", "Contributors")].
Proof. reflexivity. Qed.

Lemma rendered_heading_block :
  heading_blocks (CommunitySupportedNumbers tt)
  = [ mkHeadingBlock "Supported by the community"
        [ ("href", AStr "#");
          ("className", AStr "group mt-3 inline-flex items-center") ]
        "Join them now"
        [ right_arrow ] ].
Proof. reflexivity. Qed.

(** C10.  The component takes no input: called with any unit, and
    invoked by React with any props of any type in any world, it returns
    one and the same tree and leaves the world as it was; in that tree
    the heading, the link text, the link target (the literal "#") and
    the three value/label/gradient entries are the literals of the
    source. *)
Theorem component_is_constant :
  (forall u : unit, CommunitySupportedNumbers u = CommunitySupportedNumbers tt)
  /\ (forall (P Q : Type) (p : P) (q : Q) (w1 w2 : World),
        fst (call_nullary CommunitySupportedNumbers p w1)
        = fst (call_nullary CommunitySupportedNumbers q w2))
  /\ (forall (cfg : MetricsStripConfig) (w : World),
        MetricsStrip cfg w = (Returned (CommunitySupportedNumbers tt), w))
  /\ map (fun b => (hb_heading b, hb_cta_text b, hb_href b))
         (heading_blocks (CommunitySupportedNumbers tt))
     = [ ("Supported by the community", "Join them now", Some (AStr "#")) ]
  /\ metric_blocks (CommunitySupportedNumbers tt)
     = [("20k", "Github Stars"); ("10k", "Discord Users"); ("100", "Contributors")]
  /\ (forall (screens : Screens) (ctx : Ctx),
        map (text_gradient screens ctx)
            (by_tag (Host "p") (CommunitySupportedNumbers tt))
        = [ Some ("#FB540C", "#DD7D31");
            Some ("#B59C53", "#A5A76B");
            Some ("#93B083", "#7BBB9F") ]).
Proof.
  split; [intros []; reflexivity |].
  split; [intros; reflexivity |].
  split; [exact MetricsStrip_returns |].
  split; [reflexivity |].
  split; [exact rendered_metric_blocks |].
  intros screens ctx. reflexivity.
Qed.

(** ** Content *)

(** C2.  Rendering the reference configuration returns a tree whose
    heading is "Supported by the community", whose link reads "Join them
    now" and points to "#", and whose metric blocks are, left to right,
    "20k"/"Github Stars", "10k"/"Discord Users", "100"/"Contributors":
    each label sits in the block of its own value, and the texts come in
    that order in the document. *)
Theorem reference_labels_in_order (w : World) :
  exists t : Node,
    MetricsStrip reference_config w = (Returned t, w)
    /\ map (fun b => (hb_heading b, hb_cta_text b, hb_href b)) (heading_blocks t)
       = [ (heading reference_config, ctaLabel reference_config,
            Some (AStr (ctaHref reference_config))) ]
    /\ metric_blocks t = map value_label (metrics reference_config)
    /\ map snd (metric_blocks t) = ["Github Stars"; "Discord Users"; "Contributors"]
    /\ map fst (metric_blocks t) = ["20k"; "10k"; "100"]
    /\ texts t
       = [ "Supported by the community"; "Join them now";
           "20k"; "Github Stars"; "10k"; "Discord Users"; "100"; "Contributors" ].
Proof.
  exists (CommunitySupportedNumbers tt).
  repeat split.
Qed.

(** ** Metric blocks and the configuration *)

(** A configuration with a single metric still renders the three
    blocks of the source. *)
Lemma single_metric_not_rendered_in_order :
  ~ metrics_rendered_in_order
      (mkConfig "Supported by the community" "Join them now" "#"
         [ mkMetric "7" "Sponsors" "#FB540C" "#DD7D31" ]).
Proof.
  intros H.
  specialize (H (mkWorld 0 0 375 []) (CommunitySupportedNumbers tt) eq_refl).
  discriminate H.
Qed.

(** C1 (amended).  Whatever metrics sequence the configuration holds,
    the rendered tree has exactly three metric blocks: those of the
    reference content, in the order of the reference sequence. *)
Theorem metric_blocks_fixed (cfg : MetricsStripConfig) (w : World) :
  exists t : Node,
    MetricsStrip cfg w = (Returned t, w)
    /\ metric_blocks t = map value_label reference_metrics
    /\ length (metric_blocks t) = 3.
Proof.
  exists (CommunitySupportedNumbers tt).
  rewrite MetricsStrip_returns, rendered_metric_blocks.
  repeat split.
Qed.

(** ** Totality *)

Lemma empty_metrics_render_blocks :
  ~ renders_no_metric_block
      (mkConfig "Supported by the community" "Join them now" "#" []).
Proof.
  intros H.
  specialize (H (mkWorld 0 0 1280 []) (CommunitySupportedNumbers tt) eq_refl).
  discriminate H.
Qed.

(** C3 (amended).  Rendering returns, and never throws, for every
    configuration in every world: empty strings and an empty metrics
    sequence included.  The tree returned has the one heading/CTA block
    and, also when the metrics sequence is empty, the three metric
    blocks of the source. *)
Theorem rendering_never_throws (cfg : MetricsStripConfig) (w : World) :
  (forall e : string, fst (MetricsStrip cfg w) <> Thrown e)
  /\ exists t : Node,
       MetricsStrip cfg w = (Returned t, w)
       /\ length (heading_blocks t) = 1
       /\ metric_blocks t = map value_label reference_metrics.
Proof.
  rewrite MetricsStrip_returns. split.
  - intros e; simpl; discriminate.
  - eexists; split; [reflexivity |].
    rewrite rendered_heading_block, rendered_metric_blocks.
    split; reflexivity.
Qed.

(** ** Determinism *)

Lemma render_passes_repeat (cfg : MetricsStripConfig) (n : nat) (w : World) :
  render_passes cfg n w
  = (Returned (repeat (CommunitySupportedNumbers tt) n), w).
Proof.
  induction n as [| k IH]; simpl.
  - reflexivity.
  - unfold bind at 1. rewrite MetricsStrip_returns.
    unfold bind. rewrite IH. reflexivity.
Qed.

(** C4.  With the configuration unchanged, two renders give the same
    tree whatever the worlds they run in (render count, clock, viewport
    width, hook cells), a render leaves the world as it found it, and
    any number of passes in a row return that many copies of one tree.
    Equal trees have equal serialisations. *)
Theorem rendering_is_deterministic (cfg : MetricsStripConfig) :
  (forall w1 w2 : World, fst (MetricsStrip cfg w1) = fst (MetricsStrip cfg w2))
  /\ (forall w : World, snd (MetricsStrip cfg w) = w)
  /\ (forall (n : nat) (w : World),
        exists t : Node,
          fst (MetricsStrip cfg w) = Returned t
          /\ render_passes cfg n w = (Returned (repeat t n), w)).
Proof.
  split; [| split].
  - intros w1 w2. now rewrite !MetricsStrip_returns.
  - intros w. now rewrite MetricsStrip_returns.
  - intros n w. exists (CommunitySupportedNumbers tt). split.
    + now rewrite MetricsStrip_returns.
    + apply render_passes_repeat.
Qed.

(** ** The call to action *)

Lemma foreign_cta_not_followed :
  ~ cta_follows_config
      (mkConfig "Supported by the community" "Sign up" "/signup" reference_metrics).
Proof.
  intros H.
  destruct (H (mkWorld 0 0 1280 []) (CommunitySupportedNumbers tt) eq_refl)
    as (b & Hb & Hhref & _).
  rewrite rendered_heading_block in Hb.
  injection Hb as <-.
  discriminate Hhref.
Qed.

(** C8 (amended).  In every rendered output the heading block holds a
    [Link] whose [href] is the literal "#" and whose text is the literal
    "Join them now" (the reference values; a configuration naming others
    is not read).  The text is followed by one [svg] glyph.  The link is
    a hover group and the glyph is relatively positioned, so that it is
    drawn 2 steps to the right of its place at rest and 4 steps while
    the pointer is over the link, at every viewport width; the move is
    animated ([transition-all], 300 ms, ease-in-out).  The tree is the
    same with or without hover, registers no event handler, and
    rendering leaves the world unchanged. *)
Theorem cta_is_fixed_link_with_hover_glyph
    (cfg : MetricsStripConfig) (w : World) (screens : Screens) (vw : Z) :
  exists (t : Node) (b : HeadingBlock) (g : Node),
    MetricsStrip cfg w = (Returned t, w)
    /\ heading_blocks t = [b]
    /\ hb_href b = Some (AStr "#")
    /\ hb_cta_text b = "Join them now"
    /\ indicator b = Some g
    /\ has_tag (Host "svg") g = true
    /\ is_group b = true
    /\ indicator_offset screens vw false b = Some 2%N
    /\ indicator_offset screens vw true b = Some 4%N
    /\ (forall hovered : bool,
          styled screens (mkCtx vw hovered) read_position g = Some PRelative
          /\ has_utility screens (mkCtx vw hovered) "transition-all" g = true
          /\ styled screens (mkCtx vw hovered) read_duration g = Some 300%N
          /\ styled screens (mkCtx vw hovered) read_timing g = Some EaseInOut)
    /\ handlers t = [].
Proof.
  exists (CommunitySupportedNumbers tt).
  rewrite rendered_heading_block.
  eexists; exists right_arrow.
  split; [apply MetricsStrip_returns |].
  split; [reflexivity |].
  repeat (split; [reflexivity |]).
  split; [| reflexivity].
  intros []; repeat split.
Qed.

(** ** Gradients *)

Lemma recoloured_metric_keeps_source_gradient :
  ~ values_follow_config_gradient default_screens (mkCtx 1280 false)
      (mkConfig "Supported by the community" "Join them now" "#"
         [ mkMetric "20k" "Github Stars" "#000000" "#FFFFFF";
           mkMetric "10k" "Discord Users" "#B59C53" "#A5A76B";
           mkMetric "100" "Contributors" "#93B083" "#7BBB9F" ]).
Proof.
  intros H.
  specialize (H (mkWorld 0 0 1280 []) (CommunitySupportedNumbers tt) eq_refl).
  vm_compute in H.
  discriminate H.
Qed.

(** C9 (amended).  Whatever colours the configuration names, the value
    of each rendered metric is painted with a gradient running to the
    right, clipped to the text, between the two colours the source
    writes for it, which are the [gradientStart] and [gradientEnd] of the
    reference metric in that place, at every viewport width; the three
    reference metrics have three different colour pairs. *)
Theorem values_painted_with_own_gradient
    (cfg : MetricsStripConfig) (w : World) (screens : Screens) (ctx : Ctx) :
  exists t : Node,
    MetricsStrip cfg w = (Returned t, w)
    /\ map (fun p => (texts p, text_gradient screens ctx p)) (metric_values t)
       = map (fun m => ([value m], Some (gradient_pair m))) reference_metrics
    /\ NoDup (map gradient_pair reference_metrics).
Proof.
  exists (CommunitySupportedNumbers tt).
  split; [apply MetricsStrip_returns |].
  split; [reflexivity |].
  repeat constructor; simpl; intuition discriminate.
Qed.

(** ** Responsive layout *)

Section Breakpoint.

Variable screens : Screens.
Variable ctx : Ctx.

Lemma rank_plain : variants_rank screens ctx [] = Some (-2)%Z.
Proof. reflexivity. Qed.

(** The [lg] breakpoint of the theme. *)
Variable lg_min : Z.
Hypothesis lg_defined : screens "lg" = Some lg_min.

Lemma rank_lg_below :
  (width ctx < lg_min)%Z -> variants_rank screens ctx ["lg"] = None.
Proof.
  intros Hw. simpl. unfold variant_rank. simpl. rewrite lg_defined.
  apply Z.leb_gt in Hw. now rewrite Hw.
Qed.

Lemma rank_lg_from :
  (lg_min <= width ctx)%Z ->
  exists k : Z,
    variants_rank screens ctx ["lg"] = Some k /\ (-2 <? k)%Z = true.
Proof.
  intros Hw. simpl. unfold variant_rank. simpl. rewrite lg_defined.
  apply Z.leb_le in Hw. rewrite Hw.
  eexists; split; [reflexivity |].
  apply Z.ltb_lt. lia.
Qed.

(** C6 (amended).  Below the [lg] breakpoint the grid has three equal
    columns.  The heading/CTA block spans all three in the first row,
    the separator generates no box, and the metric blocks sit side by
    side in the second row, one column each, in the order of the
    sequence. *)
Theorem narrow_layout_three_columns
    (cfg : MetricsStripConfig) (w : World)
    (narrow : (width ctx < lg_min)%Z) :
  exists t : Node,
    MetricsStrip cfg w = (Returned t, w)
    /\ layout screens ctx t
       = Some (mkLayout [EqualShare; EqualShare; EqualShare]
                 (mkPlaced KHeading 0 0 3
                  :: metric_cells 1 0 reference_metrics))
    /\ map (hidden screens ctx) (glyphs t) = [false; true].
Proof.
  exists (CommunitySupportedNumbers tt).
  split; [apply MetricsStrip_returns |].
  split.
  - cbv -[variants_rank Z.ltb].
    rewrite !rank_plain, !(rank_lg_below narrow).
    reflexivity.
  - cbv -[variants_rank Z.ltb].
    rewrite !rank_plain, !(rank_lg_below narrow).
    reflexivity.
Qed.

(** C7 (amended).  From the [lg] breakpoint on the grid has the fixed
    five-column template [1fr 51px 1fr 1fr 1fr] and a single row: the
    heading/CTA block in the first column, the separator (an [svg] 51
    wide) in the fixed 51px column, and the three reference metrics in
    the last three columns, one each, in the order of the reference
    sequence, whatever metrics the configuration holds. *)
Theorem wide_layout_follows_template
    (cfg : MetricsStripConfig) (w : World)
    (wide : (lg_min <= width ctx)%Z) :
  exists t : Node,
    MetricsStrip cfg w = (Returned t, w)
    /\ layout screens ctx t
       = Some (mkLayout [Fr 1; Px 51; Fr 1; Fr 1; Fr 1]
                 (mkPlaced KHeading 0 0 1
                  :: mkPlaced KSeparator 0 1 1
                  :: metric_cells 0 2 reference_metrics))
    /\ map (get_prop "width")
           (map props_of (filter (has_tag (Host "svg")) (grid_items t)))
       = [Some (ANum 51)].
Proof.
  exists (CommunitySupportedNumbers tt).
  split; [apply MetricsStrip_returns |].
  split; [| reflexivity].
  destruct (rank_lg_from wide) as (k & Hk & Hlt).
  cbv -[variants_rank Z.ltb].
  rewrite !rank_plain, !Hk.
  cbv -[variants_rank Z.ltb].
  rewrite !Hlt.
  reflexivity.
Qed.

End Breakpoint.

Lemma narrow_layout_not_single_column :
  ~ stacks_in_single_column default_screens (mkCtx 375 false)
      (CommunitySupportedNumbers tt).
Proof.
  intros H.
  specialize (H _ eq_refl).
  discriminate H.
Qed.

Lemma reversed_metrics_not_in_input_order :
  ~ wide_cells_follow_input default_screens (mkCtx 1280 false)
      (mkConfig "Supported by the community" "Join them now" "#"
         (rev reference_metrics)).
Proof.
  intros H.
  destruct (H (mkWorld 0 0 1280 []) (CommunitySupportedNumbers tt) eq_refl)
    as (l & Hl & Hcells).
  vm_compute in Hl.
  injection Hl as <-.
  vm_compute in Hcells.
  discriminate Hcells.
Qed.

Lemma narrow_layout_at_375 :
  default_screens "lg" = Some 1024%Z
  /\ (width (mkCtx 375 false) < 1024)%Z
  /\ exists t : Node,
       MetricsStrip reference_config (mkWorld 0 0 375 []) = (Returned t, mkWorld 0 0 375 [])
       /\ layout default_screens (mkCtx 375 false) t
          = Some (mkLayout [EqualShare; EqualShare; EqualShare]
                    (mkPlaced KHeading 0 0 3
                     :: metric_cells 1 0 reference_metrics))
       /\ map (hidden default_screens (mkCtx 375 false)) (glyphs t) = [false; true].
Proof.
  split; [reflexivity |].
  split; [simpl; lia |].
  apply (narrow_layout_three_columns default_screens (mkCtx 375 false) 1024);
    [reflexivity | simpl; lia].
Defined.

Lemma wide_layout_at_1280 :
  default_screens "lg" = Some 1024%Z
  /\ (1024 <= width (mkCtx 1280 false))%Z
  /\ exists t : Node,
       MetricsStrip reference_config (mkWorld 0 0 1280 []) = (Returned t, mkWorld 0 0 1280 [])
       /\ layout default_screens (mkCtx 1280 false) t
          = Some (mkLayout [Fr 1; Px 51; Fr 1; Fr 1; Fr 1]
                    (mkPlaced KHeading 0 0 1
                     :: mkPlaced KSeparator 0 1 1
                     :: metric_cells 0 2 reference_metrics))
       /\ map (get_prop "width")
              (map props_of (filter (has_tag (Host "svg")) (grid_items t)))
          = [Some (ANum 51)].
Proof.
  split; [reflexivity |].
  split; [simpl; lia |].
  apply (wide_layout_follows_template default_screens (mkCtx 1280 false) 1024);
    [reflexivity | simpl; lia].
Defined.

(** ** Accessibility *)

Lemma glyphs_of_component :
  glyphs (CommunitySupportedNumbers tt) = [right_arrow; chevron].
Proof. reflexivity. Qed.

Lemma glyphs_exposed :
  ~ glyphs_marked_decorative (CommunitySupportedNumbers tt)
  /\ ~ glyphs_not_narrated default_screens (mkCtx 1280 false)
         (CommunitySupportedNumbers tt).
Proof.
  split.
  - intros H.
    specialize (H right_arrow).
    rewrite glyphs_of_component in H.
    specialize (H (or_introl eq_refl)).
    discriminate H.
  - unfold glyphs_not_narrated. discriminate.
Qed.

(** C5 (amended).  In every rendered output the arrow and the separator
    are present in the markup as two [svg] elements that hold no text.
    Nothing marks them decorative: no element of the tree carries
    [aria-hidden], a role, a label or a title.  The arrow is given to
    assistive technology as a graphic object in every context, the
    separator wherever it is displayed.  All textual content (heading,
    link text, each value and label) is narrated, in document order, in
    every context. *)
Theorem glyphs_unmarked_texts_narrated
    (cfg : MetricsStripConfig) (w : World) (screens : Screens) (ctx : Ctx) :
  exists t : Node,
    MetricsStrip cfg w = (Returned t, w)
    /\ glyphs t = [right_arrow; chevron]
    /\ flat_map texts (glyphs t) = []
    /\ map marked_decorative (glyphs t) = [false; false]
    /\ filter is_aria_prop (prop_names t) = []
    /\ narration screens ctx right_arrow = [Graphic]
    /\ narration screens ctx chevron
       = (if hidden screens ctx chevron then [] else [Graphic])
    /\ existsb is_graphic (narration screens ctx t) = true
    /\ spoken_texts (narration screens ctx t)
       = [ "Supported by the community"; "Join them now";
           "20k"; "Github Stars"; "10k"; "Discord Users"; "100"; "Contributors" ].
Proof.
  exists (CommunitySupportedNumbers tt).
  split; [apply MetricsStrip_returns |].
  split; [exact glyphs_of_component |].
  split; [reflexivity |].
  split; [reflexivity |].
  split; [reflexivity |].
  split; [reflexivity |].
  assert (Hrank : variants_rank screens ctx [] = Some (-2)%Z) by reflexivity.
  split; [| split].
  - cbv -[variants_rank Z.ltb]. rewrite Hrank.
    destruct (variants_rank screens ctx ["lg"]) as [k |];
      [destruct (-2 <? k)%Z |]; reflexivity.
  - cbv -[variants_rank Z.ltb]. reflexivity.
  - cbv -[variants_rank Z.ltb]. rewrite Hrank.
    destruct (variants_rank screens ctx ["lg"]) as [k |];
      [destruct (-2 <? k)%Z |]; reflexivity.
Qed.

(** ** The Authentication icon *)

Lemma own_assign_same (k : string) (v : option AttrValue) (o : Obj) :
  own k (assign k v o) = Some v.
Proof.
  induction o as [| [k' v'] r IH]; simpl.
  - now rewrite String.eqb_refl.
  - destruct (String.eqb k k') eqn:E; simpl; rewrite E; [reflexivity | exact IH].
Qed.

Lemma own_assign_other (k k' : string) (v : option AttrValue) (o : Obj) :
  k <> k' -> own k (assign k' v o) = own k o.
Proof.
  intros Hne. induction o as [| [k0 v0] r IH]; simpl.
  - apply String.eqb_neq in Hne. now rewrite Hne.
  - destruct (String.eqb k' k0) eqn:E; simpl.
    + apply String.eqb_eq in E. subst k0.
      apply String.eqb_neq in Hne. now rewrite Hne.
    + now rewrite IH.
Qed.

Lemma own_app (k : string) (a b : Obj) :
  own k (a ++ b) = match own k a with Some v => Some v | None => own k b end.
Proof.
  induction a as [| [k' v'] r IH]; simpl; [reflexivity |].
  destruct (String.eqb k k'); [reflexivity | exact IH].
Qed.

(** Reading a key of a spread: the last assignment of the spread-in
    object if it has one, else what the target held. *)
Lemma own_spread (k : string) (p o : Obj) :
  own k (spread o p)
  = match last_set k p with Some v => Some v | None => own k o end.
Proof.
  unfold spread, last_set. revert o.
  induction p as [| [k' v'] p IH]; intros o; simpl; [reflexivity |].
  rewrite IH, own_app. simpl.
  destruct (own k (rev p)); [reflexivity |].
  destruct (String.eqb k k') eqn:E.
  - apply String.eqb_eq in E. subst k'. apply own_assign_same.
  - apply String.eqb_neq in E. now apply own_assign_other.
Qed.

Lemma keys_assign (k : string) (v : option AttrValue) (o : Obj) :
  map fst (assign k v o)
  = if existsb (String.eqb k) (map fst o) then map fst o else map fst o ++ [k].
Proof.
  induction o as [| [k' v'] r IH]; simpl; [reflexivity |].
  destruct (String.eqb k k') eqn:E; simpl; [reflexivity |].
  rewrite IH. now destruct (existsb (String.eqb k) (map fst r)).
Qed.

Lemma assign_keeps_nodup (k : string) (v : option AttrValue) (o : Obj) :
  NoDup (map fst o) -> NoDup (map fst (assign k v o)).
Proof.
  intros Hnd. rewrite keys_assign.
  destruct (existsb (String.eqb k) (map fst o)) eqn:E; [exact Hnd |].
  apply NoDup_app.
  - exact Hnd.
  - constructor; [intros [] | constructor].
  - intros x Hx [<- | []].
    assert (existsb (String.eqb k) (map fst o) = true) as Hc.
    { apply existsb_exists. exists k. split; [exact Hx | apply String.eqb_refl]. }
    congruence.
Qed.

Lemma spread_keeps_nodup (p o : Obj) :
  NoDup (map fst o) -> NoDup (map fst (spread o p)).
Proof.
  unfold spread. revert o.
  induction p as [| [k v] p IH]; intros o Hnd; simpl; [exact Hnd |].
  apply IH. now apply assign_keeps_nodup.
Qed.

Lemma attributes_keys_in (k : string) (o : Obj) :
  In k (map fst (attributes o)) -> In k (map fst o) /\ k <> "children".
Proof.
  induction o as [| [k' [v' |]] r IH]; simpl; [intros [] | |].
  - destruct (String.eqb k' "children") eqn:E; simpl.
    + intros H. destruct (IH H). split; [now right | assumption].
    + intros [<- | H].
      * split; [now left | now apply String.eqb_neq].
      * destruct (IH H). split; [now right | assumption].
  - intros H. destruct (IH H). split; [now right | assumption].
Qed.

Lemma attributes_keep_nodup (o : Obj) :
  NoDup (map fst o) -> NoDup (map fst (attributes o)).
Proof.
  induction o as [| [k' [v' |]] r IH]; simpl; intros Hnd.
  - constructor.
  - inversion Hnd as [| ? ? Hnotin Hnd']; subst.
    destruct (String.eqb k' "children"); [now apply IH |].
    simpl. constructor; [| now apply IH].
    intros Hin. apply attributes_keys_in in Hin. now destruct Hin.
  - inversion Hnd; subst. now apply IH.
Qed.

Lemma get_prop_absent (k : string) (ps : list (string * AttrValue)) :
  ~ In k (map fst ps) -> get_prop k ps = None.
Proof.
  induction ps as [| [k' v'] r IH]; simpl; intros Hn; [reflexivity |].
  destruct (String.eqb k k') eqn:E.
  - apply String.eqb_eq in E. subst. exfalso. apply Hn. now left.
  - apply IH. intros H. apply Hn. now right.
Qed.

(** An attribute of the element is the defined own value of its key. *)
Lemma get_prop_attributes (k : string) (o : Obj) :
  NoDup (map fst o) -> k <> "children" ->
  get_prop k (attributes o)
  = match own k o with Some (Some v) => Some v | _ => None end.
Proof.
  intros Hnd Hk.
  induction o as [| [k' [v' |]] r IH]; simpl; [reflexivity | |];
    inversion Hnd as [| ? ? Hnotin Hnd']; subst.
  - destruct (String.eqb k' "children") eqn:Ec.
    + apply String.eqb_eq in Ec. subst k'.
      apply String.eqb_neq in Hk. rewrite Hk. now apply IH.
    + simpl. destruct (String.eqb k k'); [reflexivity | now apply IH].
  - destruct (String.eqb k k') eqn:E; [| now apply IH].
    apply String.eqb_eq in E. subst k'.
    apply get_prop_absent. intros Hin.
    apply attributes_keys_in in Hin. now destruct Hin.
Qed.

(** X1.  The attributes of the icon follow its caller: for every props
    object and every name, the attribute is what the caller's last
    assignment to that name set (no attribute when it set [undefined],
    which also erases a default), and the default of line 64 when the
    caller did not name it.  The [path] is the only child whatever the
    props hold, [children] included. *)
Theorem icon_props_override_defaults (props : Obj) (k : string) :
  get_prop k (props_of (Authentication props)) = icon_attribute props k
  /\ children_of (Authentication props) = [icon_path].
Proof.
  split; [| reflexivity].
  unfold icon_attribute.
  change (props_of (Authentication props))
    with (attributes (spread icon_defaults props)).
  assert (Hnd : NoDup (map fst icon_defaults)).
  { repeat constructor; simpl; intuition discriminate. }
  destruct (String.eqb k "children") eqn:Ek.
  - apply String.eqb_eq in Ek. subst k.
    apply get_prop_absent. intros Hin.
    apply attributes_keys_in in Hin. now destruct Hin.
  - apply String.eqb_neq in Ek.
    rewrite get_prop_attributes; [| now apply spread_keeps_nodup | exact Ek].
    rewrite own_spread.
    destruct (last_set k props) as [[v |] |]; try reflexivity.
    symmetry. now apply get_prop_attributes.
Qed.

(** X2.  No attribute name occurs twice on the icon, whatever the props:
    a name the caller repeats, or shares with a default, is written
    once. *)
Theorem icon_attribute_names_unique (props : Obj) :
  NoDup (map fst (props_of (Authentication props))).
Proof.
  change (props_of (Authentication props))
    with (attributes (spread icon_defaults props)).
  apply attributes_keep_nodup, spread_keeps_nodup.
  repeat constructor; simpl; intuition discriminate.
Qed.

(** ** The strip in every context *)

Lemma rank_lg_applies (screens : Screens) (ctx : Ctx) :
  lg_applies screens ctx = true ->
  exists k : Z,
    variants_rank screens ctx ["lg"] = Some k /\ (-2 <? k)%Z = true.
Proof.
  unfold lg_applies. simpl. unfold variant_rank. simpl.
  destruct (screens "lg") as [m |]; [| discriminate].
  intros ->. eexists; split; [reflexivity |].
  apply Z.ltb_lt. lia.
Qed.

Lemma rank_lg_not_applies (screens : Screens) (ctx : Ctx) :
  lg_applies screens ctx = false ->
  variants_rank screens ctx ["lg"] = None.
Proof.
  unfold lg_applies. simpl. unfold variant_rank. simpl.
  destruct (screens "lg") as [m |]; [| reflexivity].
  now intros ->.
Qed.

(** X3.  For every breakpoint table, viewport width and hover state the
    strip has one of exactly two layouts, and which one is decided by the
    [lg] media query alone: the five-column row when it matches, the
    three-column layout otherwise (also when the theme defines no [lg]).
    In both every cell lies inside the columns of the template. *)
Theorem layout_has_two_states (screens : Screens) (ctx : Ctx) :
  layout screens ctx (CommunitySupportedNumbers tt)
  = Some (if lg_applies screens ctx then wide_layout else narrow_layout)
  /\ option_map fits (layout screens ctx (CommunitySupportedNumbers tt))
     = Some true.
Proof.
  assert (Hplain : variants_rank screens ctx [] = Some (-2)%Z) by reflexivity.
  destruct (lg_applies screens ctx) eqn:Hlg.
  - destruct (rank_lg_applies _ _ Hlg) as (k & Hk & Hlt).
    split.
    + cbv -[variants_rank Z.ltb]. rewrite !Hplain, !Hk.
      cbv -[variants_rank Z.ltb]. rewrite !Hlt. reflexivity.
    + cbv -[variants_rank Z.ltb]. rewrite !Hplain, !Hk.
      cbv -[variants_rank Z.ltb]. rewrite !Hlt. reflexivity.
  - pose proof (rank_lg_not_applies _ _ Hlg) as Hk.
    split.
    + cbv -[variants_rank Z.ltb]. rewrite !Hplain, !Hk. reflexivity.
    + cbv -[variants_rank Z.ltb]. rewrite !Hplain, !Hk. reflexivity.
Qed.

(** ** Hover *)

Lemma variants_rank_hover (screens : Screens) (w : Z) (h1 h2 : bool)
    (vs : list string) :
  forallb (fun v => negb (String.eqb v "group-hover")) vs = true ->
  variants_rank screens (mkCtx w h1) vs = variants_rank screens (mkCtx w h2) vs.
Proof.
  induction vs as [| v r IH]; simpl; [reflexivity |].
  intros H. apply andb_prop in H. destruct H as [Hv Hr].
  rewrite (IH Hr). unfold variant_rank.
  apply negb_true_iff in Hv. rewrite Hv. reflexivity.
Qed.

Lemma resolve_from_hover {A : Type} (screens : Screens) (w : Z) (h1 h2 : bool)
    (read : string -> option A) (cs : list Class) (best : option (Z * A)) :
  forallb hover_free cs = true ->
  resolve_from screens (mkCtx w h1) read best cs
  = resolve_from screens (mkCtx w h2) read best cs.
Proof.
  revert best.
  induction cs as [| c r IH]; intros best H; simpl; [reflexivity |].
  simpl in H. apply andb_prop in H. destruct H as [Hc Hr].
  rewrite (variants_rank_hover screens w h1 h2 _ Hc).
  now apply IH.
Qed.

Lemma styled_hover {A : Type} (screens : Screens) (w : Z) (h1 h2 : bool)
    (read : string -> option A) (n : Node) :
  hover_free_node n = true ->
  styled screens (mkCtx w h1) read n = styled screens (mkCtx w h2) read n.
Proof.
  intros H. unfold styled, resolve.
  now rewrite (resolve_from_hover screens w h1 h2 read _ None H).
Qed.

(** X4.  Hovering the link restyles nothing but the arrow: for every
    element of the strip other than the arrow, every property read from
    its classes has the same value with and without hover, at every
    width and under every breakpoint table. *)
Theorem hover_restyles_only_the_arrow
    {A : Type} (screens : Screens) (w : Z) (read : string -> option A)
    (e : Node) :
  In e (elements (CommunitySupportedNumbers tt)) ->
  e <> right_arrow ->
  styled screens (mkCtx w true) read e = styled screens (mkCtx w false) read e.
Proof.
  intros Hin Hne.
  assert (Hfree : hover_free_node e = true).
  { cbn [elements flat_map app CommunitySupportedNumbers] in Hin.
    repeat (destruct Hin as [<- | Hin]; [try reflexivity |]).
    - exfalso. now apply Hne.
    - destruct Hin. }
  now apply styled_hover.
Qed.

Lemma hover_leaves_chevron_display :
  In chevron (elements (CommunitySupportedNumbers tt))
  /\ chevron <> right_arrow
  /\ styled default_screens (mkCtx 1280 true) read_display chevron
     = styled default_screens (mkCtx 1280 false) read_display chevron.
Proof.
  assert (Hin : In chevron (elements (CommunitySupportedNumbers tt))).
  { simpl. tauto. }
  assert (Hne : chevron <> right_arrow) by discriminate.
  split; [exact Hin |].
  split; [exact Hne |].
  exact (hover_restyles_only_the_arrow default_screens 1280 read_display
           chevron Hin Hne).
Defined.

(** ** The handlers of the article *)

Import Backend.

Section HandlerFacts.

Context {X : Externals} {S : Type}.
Variable env : Environment X S.

(** Case analysis on the answer of the next awaited call. *)
Ltac answer :=
  match goal with
  | |- context [env ?A ?c ?s] =>
      let a := fresh "a" in
      let s' := fresh "s" in
      destruct (env A c s) as [a s'] eqn:?; try destruct a as [? | ?]; cbn
  end.

(* Two logs differ when they differ in length or in which calls failed. *)
Ltac now_differs H :=
  apply (f_equal (fun l => (length l, existsb failed l))) in H;
  cbn in H; discriminate H.

Ltac author_check :=
  match goal with
  | |- context [String.eqb ?a ?b] => destruct (String.eqb a b) eqn:?; cbn
  end.

(** X5.  [update_issue] and [delete_issue] send a statement that
    changes the table only to a caller Clerk has verified and whose
    subject is the author of the issue looked up: whenever the log of a
    run holds a write, it starts with a successful authorisation of the
    request and a successful lookup of the issue by the path id, and
    the author found equals the subject of the claim. *)
Theorem writes_only_by_the_author
    (payload : NewIssue.t) (issue_id : Z) (req : HttpRequest X) (s : S)
    (t : Task X HttpResponse) :
  t = update_issue payload issue_id req \/ t = delete_issue issue_id req ->
  existsb is_write (log (run env t s)) = true ->
  exists (info : AuthInfo X) (claim : ClerkJwt X) (issue : Issue.t)
         (rest : list (Made X)),
    log (run env t s)
    = made (clerk_authorize req true) (Ok (info, claim))
      :: made (fetch_one (select_issue issue_id)) (Ok issue)
      :: rest
    /\ Issue.author issue = sub X claim.
Proof.
  intros [-> | ->]; cbn.
  - answer; [destruct t as [info claim] |]; cbn; [| discriminate].
    answer; [| discriminate].
    author_check; [| discriminate].
    intros _. exists info, claim, t. eexists. split; [reflexivity |].
    now apply String.eqb_eq.
  - answer; [destruct t as [info claim] |]; cbn; [| discriminate].
    answer; [| discriminate].
    author_check; [| discriminate].
    intros _. exists info, claim, t. eexists. split; [reflexivity |].
    now apply String.eqb_eq.
Qed.

(** X6.  No handler panics and each one ends with a response, whatever
    the environment answers: the two [unwrap]s of [update_issue] and
    [delete_issue] and the one of [get_user] are reached only with a
    claim that is [Some]. *)
Theorem handlers_always_respond
    (payload : NewIssue.t) (issue_id : Z) (user_id : string)
    (req : HttpRequest X) (s : S) :
  Forall (fun t : Task X HttpResponse =>
            exists r : HttpResponse, outcome (run env t s) = Finished r)
    [ add_issue payload; get_issues; get_issue issue_id;
      update_issue payload issue_id req; delete_issue issue_id req;
      get_user req; get_user_by_id user_id ].
Proof.
  repeat (apply Forall_cons; [| try apply Forall_nil]); cbn.
  - answer; eexists; reflexivity.
  - answer; eexists; reflexivity.
  - answer; eexists; reflexivity.
  - answer; [| eexists; reflexivity].
    answer; [| eexists; reflexivity].
    author_check; [| eexists; reflexivity].
    answer; eexists; reflexivity.
  - answer; [| eexists; reflexivity].
    answer; [| eexists; reflexivity].
    author_check; [| eexists; reflexivity].
    answer; eexists; reflexivity.
  - answer; [| eexists; reflexivity].
    answer; eexists; reflexivity.
  - answer; eexists; reflexivity.
Qed.

(** X7.  [update_issue] and [delete_issue] answer 200 exactly when
    the run made three calls, each of which succeeded, the last being
    the write; every earlier exit answers with another status. *)
Theorem ok_exactly_after_successful_write
    (payload : NewIssue.t) (issue_id : Z) (req : HttpRequest X) (s : S) :
  Forall (fun t : Task X HttpResponse =>
            status_of (outcome (run env t s)) = Some OK
            <-> exists (info : AuthInfo X) (claim : ClerkJwt X)
                       (issue row : Issue.t) (q : Query),
                  log (run env t s)
                  = [ made (clerk_authorize req true) (Ok (info, claim));
                      made (fetch_one (select_issue issue_id)) (Ok issue);
                      made (fetch_one q) (Ok row) ]
                  /\ writes q = true)
    [ update_issue payload issue_id req; delete_issue issue_id req ].
Proof.
  apply Forall_cons; [| apply Forall_cons; [| apply Forall_nil]]; cbn.
  - answer; [destruct t as [info claim]; cbn |].
    + answer.
      * author_check.
        -- answer.
           ++ split; [intros _ | intros _; reflexivity].
              exists info, claim, t, t0. eexists. split; reflexivity.
           ++ split; [discriminate |].
              intros (? & ? & ? & ? & ? & H & _). now_differs H.
        -- split; [discriminate |].
           intros (? & ? & ? & ? & ? & H & _). now_differs H.
      * split; [discriminate |].
        intros (? & ? & ? & ? & ? & H & _). now_differs H.
    + split; [discriminate |].
      intros (? & ? & ? & ? & ? & H & _). now_differs H.
  - answer; [destruct t as [info claim]; cbn |].
    + answer.
      * author_check.
        -- answer.
           ++ split; [intros _ | intros _; reflexivity].
              exists info, claim, t, t0. eexists. split; reflexivity.
           ++ split; [discriminate |].
              intros (? & ? & ? & ? & ? & H & _). now_differs H.
        -- split; [discriminate |].
           intros (? & ? & ? & ? & ? & H & _). now_differs H.
      * split; [discriminate |].
        intros (? & ? & ? & ? & ? & H & _). now_differs H.
    + split; [discriminate |].
      intros (? & ? & ? & ? & ? & H & _). now_differs H.
Qed.

(** X8.  The author of an issue cannot be changed through
    [update_issue]: the handler runs the same, call for call and with
    the same response, whatever author the payload names. *)
Theorem update_ignores_payload_author
    (payload : NewIssue.t) (a : string) (issue_id : Z)
    (req : HttpRequest X) (s : S) :
  run env (update_issue (with_author a payload) issue_id req) s
  = run env (update_issue payload issue_id req) s.
Proof.
  destruct payload; reflexivity.
Qed.

(** X9.  What the handlers never do.  The four read endpoints send no
    statement that changes the table.  [add_issue], [get_issues],
    [get_issue] and [get_user_by_id] never ask Clerk to verify the
    caller: they stand on the middleware alone, and [add_issue] stores
    the author its payload names.  [get_user] makes no database call. *)
Theorem handlers_side_effect_table
    (payload : NewIssue.t) (issue_id : Z) (user_id : string)
    (req : HttpRequest X) (s : S) :
  Forall (fun t : Task X HttpResponse =>
            existsb is_write (log (run env t s)) = false)
    [ get_issues; get_issue issue_id; get_user req; get_user_by_id user_id ]
  /\ Forall (fun t : Task X HttpResponse =>
               existsb is_authorize (log (run env t s)) = false)
       [ add_issue payload; get_issues; get_issue issue_id;
         get_user_by_id user_id ]
  /\ existsb is_database (log (run env (get_user req) s)) = false.
Proof.
  split; [| split].
  - repeat (apply Forall_cons; [| try apply Forall_nil]); cbn.
    + answer; reflexivity.
    + answer; reflexivity.
    + answer; [| reflexivity]. answer; reflexivity.
    + answer; reflexivity.
  - repeat (apply Forall_cons; [| try apply Forall_nil]); cbn;
      answer; reflexivity.
  - cbn. answer; [| reflexivity]. answer; reflexivity.
Qed.

(** X10.  [get_user] fetches the profile of the verified caller and of
    nobody else: a run is either a failed authorisation answered with
    403 and no further call, or a successful one followed by a single
    user lookup whose id is the subject of the claim, answered with 200
    and the user, or with 500 when the lookup fails. *)
Theorem get_user_fetches_the_caller (req : HttpRequest X) (s : S) :
  (exists e : AuthError X,
     log (run env (get_user req) s) = [ made (clerk_authorize req true) (Err e) ]
     /\ status_of (outcome (run env (get_user req) s)) = Some FORBIDDEN)
  \/ (exists (info : AuthInfo X) (claim : ClerkJwt X)
             (answer : Result (User X) (ClerkError X)),
        log (run env (get_user req) s)
        = [ made (clerk_authorize req true) (Ok (info, claim));
            made (get_user_call (sub X claim)) answer ]
        /\ outcome (run env (get_user req) s)
           = Finished
               match answer with
               | Ok user => respond OK (user_model X user)
               | Err _ =>
                   respond INTERNAL_SERVER_ERROR
                     (JObj [ ("message", JStr "Unable to retrieve user") ])
               end).
Proof.
  cbn. answer.
  - right. destruct t as [info claim]. cbn.
    answer; exists info, claim; eexists; split; reflexivity.
  - left. eexists. split; reflexivity.
Qed.

(** X11.  An id that is not in the table is reported in two ways.  When
    the lookup by id fails, [get_issue] answers 500, while
    [update_issue] and [delete_issue] answer 404 to a verified caller
    (403 when the authorisation, the first call, failed) and send no
    write. *)
Theorem missing_issue_statuses
    (payload : NewIssue.t) (issue_id : Z) (req : HttpRequest X) (s : S)
    (e : SqlError X) :
  (forall s0 : S, fst (env _ (fetch_one (select_issue issue_id)) s0) = Err e) ->
  status_of (outcome (run env (get_issue issue_id) s))
  = Some INTERNAL_SERVER_ERROR
  /\ Forall (fun t : Task X HttpResponse =>
               status_of (outcome (run env t s))
               = Some (if existsb failed (firstn 1 (log (run env t s)))
                       then FORBIDDEN else NOT_FOUND)
               /\ existsb is_write (log (run env t s)) = false)
       [ update_issue payload issue_id req; delete_issue issue_id req ].
Proof.
  intros Hmiss. split.
  - cbn. pose proof (Hmiss s) as H.
    destruct (env _ (fetch_one (select_issue issue_id)) s) as [a s1].
    cbn in H. subst a. reflexivity.
  - repeat (apply Forall_cons; [| try apply Forall_nil]); cbn.
    + answer; [| split; reflexivity].
      pose proof (Hmiss s0) as H.
      destruct (env _ (fetch_one (select_issue issue_id)) s0) as [a s1].
      cbn in H. subst a. split; reflexivity.
    + answer; [| split; reflexivity].
      pose proof (Hmiss s0) as H.
      destruct (env _ (fetch_one (select_issue issue_id)) s0) as [a s1].
      cbn in H. subst a. split; reflexivity.
Qed.

End HandlerFacts.

Lemma sample_update_by_author :
  (update_issue sample_payload 1 sample_request = update_issue sample_payload 1 sample_request
   \/ update_issue sample_payload 1 sample_request = delete_issue 1 sample_request)
  /\ existsb is_write
       (log (run sample_env (update_issue sample_payload 1 sample_request) 0)) = true
  /\ exists (info : AuthInfo sample) (claim : ClerkJwt sample) (issue : Issue.t)
            (rest : list (Made sample)),
       log (run sample_env (update_issue sample_payload 1 sample_request) 0)
       = made (clerk_authorize sample_request true) (Ok (info, claim))
         :: made (fetch_one (select_issue 1)) (Ok issue)
         :: rest
       /\ Issue.author issue = sub sample claim.
Proof.
  split; [left; reflexivity |].
  split; [reflexivity |].
  exact (writes_only_by_the_author sample_env sample_payload 1 sample_request 0
           (update_issue sample_payload 1 sample_request)
           (or_introl eq_refl) eq_refl).
Defined.

Lemma sample_missing_issue :
  (forall s0 : nat,
     fst (sample_env _ (fetch_one (select_issue 2)) s0) = Err "no rows returned")
  /\ status_of (outcome (run sample_env (get_issue (X := sample) 2) 0))
     = Some INTERNAL_SERVER_ERROR
  /\ Forall (fun t : Task sample HttpResponse =>
               status_of (outcome (run sample_env t 0))
               = Some (if existsb failed (firstn 1 (log (run sample_env t 0)))
                       then FORBIDDEN else NOT_FOUND)
               /\ existsb is_write (log (run sample_env t 0)) = false)
       [ update_issue sample_payload 2 sample_request; delete_issue 2 sample_request ].
Proof.
  split; [intros s0; reflexivity |].
  exact (missing_issue_statuses sample_env sample_payload 2 sample_request 0
           "no rows returned" (fun s0 => eq_refl)).
Defined.
